(** * numrs: the JavaScript glue function [asarray]

    A shallow embedding of [src/custom_js_glue/numrs_glue.js].  The file
    holds one function, [asarray], which looks at [data[0]], [data[0][0]],
    ... and hands [data] to one of the imported constructors [asarray1d] ..
    [asarray4d].

    JavaScript arrays are objects of the heap, reached through references;
    the embedding keeps that store explicit so that what [asarray] reads,
    writes and passes on can be stated.  The imported constructors are not
    part of the file: they are taken as an arbitrary environment. *)

From Stdlib Require Import PrimFloat.
From stdpp Require Import gmap strings list.

(** ** Values of the host language *)

Module JS.

(** Heap addresses of objects. *)
Definition loc := positive.

(** The values [asarray] can be given: the primitive values and references
    to array objects.  A number is an IEEE 754 double, as in the host. *)
Inductive value : Type :=
  | VUndefined
  | VNull
  | VBoolean (b : bool)
  | VNumber (x : float)
  | VString (s : string)
  | VObject (l : loc).
Arguments VNumber x%_float.
Arguments VObject l%_positive.

(** The store: every array object is the list of its elements. *)
Abbreviation heap := (gmap loc (list value)).

(** The [typeof] operator. *)
Definition typeof (v : value) : string :=
  match v with
  | VUndefined => "undefined"
  | VNull => "object"
  | VBoolean _ => "boolean"
  | VNumber _ => "number"
  | VString _ => "string"
  | VObject _ => "object"
  end.

(** What a computation ends with: a value, or a thrown error.  [TypeError]
    is the error of the runtime itself; [Thrown] stands for anything an
    imported function throws. *)
Inductive error : Type :=
  | TypeError
  | Thrown (v : value).

Inductive completion (A : Type) : Type :=
  | Normal (a : A)
  | Throw (e : error).
Arguments Normal {A} a.
Arguments Throw {A} e.

(** The one-character string at position [i] of [s], as [s[i]] gives it. *)
Definition char_at (s : string) (i : nat) : value :=
  match String.get i s with
  | Some c => VString (String c EmptyString)
  | None => VUndefined
  end.

(** The element at position [i] of the array at [l]; a position outside
    the array reads as [undefined], and so does an address without
    elements. *)
Definition element (h : heap) (l : loc) (i : nat) : value :=
  default VUndefined (h !! l ≫= lookup i).

(** The member access [v[i]] for an index [i].  Reading a property of
    [undefined] or [null] throws a [TypeError]; a boolean or a number is
    boxed and has no indexed property; a string gives its character; an
    array gives its element. *)
Definition get_member (h : heap) (v : value) (i : nat) : completion value :=
  match v with
  | VUndefined | VNull => Throw TypeError
  | VBoolean _ | VNumber _ => Normal VUndefined
  | VString s => Normal (char_at s i)
  | VObject l => Normal (element h l i)
  end.

End JS.
Import JS.

(** ** The imported constructors and the call log *)

(** The four functions [asarray] calls and does not define. *)
Inductive callee : Type :=
  | asarray1d
  | asarray2d
  | asarray3d
  | asarray4d.

(** An imported function is given its argument and the store; it completes
    and leaves a store. *)
Definition extern_fun := value → heap → completion value * heap.

(** One call of an imported function, as it is logged. *)
Record call_event : Type := CallEvent {
  ev_callee : callee;
  ev_argument : value;
}.

(** The state a computation runs in: the store, and the log of the calls
    made to imported functions so far (the log is ghost state, nothing in
    the program reads it). *)
Record state : Type := State {
  st_heap : heap;
  st_calls : list call_event;
}.

(** ** The state and error monad of the embedding *)

Definition M (A : Type) : Type := state → completion A * state.

Definition ret {A} (a : A) : M A := λ st, (Normal a, st).

Definition bind {A B} (m : M A) (k : A → M B) : M B :=
  λ st,
    match m st with
    | (Normal a, st') => k a st'
    | (Throw e, st') => (Throw e, st')
    end.

Declare Scope js_scope.
Delimit Scope js_scope with js.
Notation "'let*' x ':=' m 'in' k" := (bind m (λ x, k))
  (at level 10, x name, m at level 100, k at level 200) : js_scope.
Local Open Scope js_scope.

(** The expression [v[i]] on a value. *)
Definition get (v : value) (i : nat) : M value :=
  λ st, (get_member (st_heap st) v i, st).

(** The expression [e[i]] for an expression [e]: [e] is evaluated, then the
    member is read. *)
Definition member (e : M value) (i : nat) : M value :=
  let* v := e in get v i.

Notation "e .[ i ]" := (member e i)
  (at level 1, left associativity, format "e .[ i ]") : js_scope.

(** ** The program *)

Section Glue.

(** The imported functions, whatever they are. *)
Variable imports : callee → extern_fun.

(** The call [f(arg)] of an imported function: it runs on the current
    store, and the call is logged. *)
Definition call (f : callee) (arg : value) : M value :=
  λ st,
    let (r, h) := imports f arg (st_heap st) in
    (r, State h (st_calls st ++ [CallEvent f arg])).

(** [export function asarray(data)].  Falling off the end of the body
    returns [undefined]. *)
Definition asarray (data : value) : M value :=
  let* t := (ret data).[0] in
  if String.eqb (typeof t) "number" then
    call asarray1d data
  else
    let* t := (ret data).[0].[0] in
    if String.eqb (typeof t) "number" then
      call asarray2d data
    else
      let* t := (ret data).[0].[0].[0] in
      if String.eqb (typeof t) "number" then
        call asarray3d data
      else
        let* t := (ret data).[0].[0].[0].[0] in
        if String.eqb (typeof t) "number" then
          call asarray4d data
        else
          ret VUndefined.

End Glue.

(** ** The shape of an input, read off the store *)

(** [typeof v === 'number']. *)
Definition is_number (v : value) : bool := String.eqb (typeof v) "number".

(** The value reached from [v] by reading element 0 [k] times. *)
Fixpoint leftmost (h : heap) (v : value) (k : nat) : completion value :=
  match k with
  | 0 => Normal v
  | S k' =>
      match leftmost h v k' with
      | Normal x => get_member h x 0
      | Throw e => Throw e
      end
  end.

(** Whether reading element 0 [k] times reaches a primitive number. *)
Definition number_at (h : heap) (v : value) (k : nat) : bool :=
  match leftmost h v k with
  | Normal x => is_number x
  | Throw _ => false
  end.

(** The nesting depth a constructor stands for. *)
Definition rank (f : callee) : nat :=
  match f with
  | asarray1d => 1
  | asarray2d => 2
  | asarray3d => 3
  | asarray4d => 4
  end.

(** A well-formed nested sequence of numbers of rank [n]: a number for
    [n = 0]; otherwise an array that is not empty and whose elements are all
    well-formed of rank [n - 1]. *)
Fixpoint nested (h : heap) (n : nat) (v : value) : bool :=
  match n with
  | 0 => is_number v
  | S n' =>
      match v with
      | VObject l =>
          match h !! l with
          | Some (x :: xs) => forallb (nested h n') (x :: xs)
          | _ => false
          end
      | _ => false
      end
  end.

(** The probe expression [data[0]...[0]] with [k] member accesses. *)
Fixpoint probe (data : value) (k : nat) : M value :=
  match k with
  | 0 => ret data
  | S k' => (probe data k').[0]
  end.

(** ** Sample inputs *)

Module Samples.

(** The store holding [[1, 2, 3]] at address 1. *)
Definition heap_flat : heap :=
  list_to_map [(1%positive, [VNumber 1; VNumber 2; VNumber 3])].

(** The store holding [[[1, 2], [3, 4]]] at address 1. *)
Definition heap_matrix : heap :=
  list_to_map [(1%positive, [VObject 2; VObject 3]);
               (2%positive, [VNumber 1; VNumber 2]);
               (3%positive, [VNumber 3; VNumber 4])].

(** The store holding [[[[[[1]]]]]] at address 1; the inner arrays
    [[[[[1]]]]], [[[[1]]]], [[[1]]] and [[1]] are at addresses 2 to 5. *)
Definition heap_deep : heap :=
  list_to_map [(1%positive, [VObject 2]);
               (2%positive, [VObject 3]);
               (3%positive, [VObject 4]);
               (4%positive, [VObject 5]);
               (5%positive, [VNumber 1])].

(** The store holding the empty array [[]] at address 1. *)
Definition heap_empty : heap := list_to_map [(1%positive, [])].

(** The store holding [["a"]] at address 1. *)
Definition heap_text : heap := list_to_map [(1%positive, [VString "a"])].

(** The store holding the ragged array [[7, [8]]] at address 1. *)
Definition heap_ragged : heap :=
  list_to_map [(1%positive, [VNumber 7; VObject 2]);
               (2%positive, [VNumber 8])].

(** Constructors that hand back a string as the array handle and leave
    the store alone. *)
Definition handles : callee → extern_fun :=
  λ f arg h,
    (Normal (VString match f with
                     | asarray1d => "1d"
                     | asarray2d => "2d"
                     | asarray3d => "3d"
                     | asarray4d => "4d"
                     end), h).

(** The store holding [[[1, "x"], 5]] at address 1: only the first row is
    an array, and only its first element a number. *)
Definition heap_ragged_rows : heap :=
  list_to_map [(1%positive, [VObject 2; VNumber 5]);
               (2%positive, [VNumber 1; VString "x"])].

(** The store holding [[[[[]]]]] at address 1: the arrays [[[[]]]], [[[]]]
    and the empty array are at addresses 2, 3 and 4. *)
Definition heap_hollow : heap :=
  list_to_map [(1%positive, [VObject 2]);
               (2%positive, [VObject 3]);
               (3%positive, [VObject 4]);
               (4%positive, [])].

End Samples.

(** ** Basic facts *)

Lemma is_number_spec v : is_number v = true ↔ ∃ x, v = VNumber x.
Proof.
  split.
  - destruct v; simpl; try discriminate. eauto.
  - intros [x ->]. reflexivity.
Qed.

Lemma probe_run data k st :
  probe data k st = (leftmost (st_heap st) data k, st).
Proof.
  induction k as [|k IH]; simpl; [reflexivity|].
  unfold member, bind. rewrite IH.
  destruct (leftmost (st_heap st) data k); reflexivity.
Qed.

(** Reading element 0 first and then [k] more times. *)
Lemma leftmost_S_front h v k :
  leftmost h v (S k) =
  match get_member h v 0 with
  | Normal x => leftmost h x k
  | Throw e => Throw e
  end.
Proof.
  induction k as [|k IH].
  - simpl. destruct (get_member h v 0); reflexivity.
  - change (leftmost h v (S (S k))) with
      (match leftmost h v (S k) with
       | Normal x => get_member h x 0
       | Throw e => Throw e
       end).
    rewrite IH. destruct (get_member h v 0); reflexivity.
Qed.

(** A thrown error stays: no later level is reached. *)
Lemma leftmost_throw_mono h v k j e :
  leftmost h v k = Throw e → k ≤ j → leftmost h v j = Throw e.
Proof.
  intros Hk Hle. induction Hle as [|j Hle IH]; [exact Hk|].
  simpl. rewrite IH. reflexivity.
Qed.

(** Past a number the chain reads [undefined] and then throws. *)
Lemma leftmost_after_number h v k x j :
  leftmost h v k = Normal (VNumber x) → k < j → number_at h v j = false.
Proof.
  intros Hk Hlt. unfold number_at.
  assert (H1 : leftmost h v (S k) = Normal VUndefined)
    by (simpl; rewrite Hk; reflexivity).
  destruct (decide (j = S k)) as [->|Hne]; [rewrite H1; reflexivity|].
  assert (H2 : leftmost h v (S (S k)) = Throw TypeError)
    by (change (leftmost h v (S (S k))) with
          (match leftmost h v (S k) with
           | Normal y => get_member h y 0
           | Throw e => Throw e
           end); rewrite H1; reflexivity).
  rewrite (leftmost_throw_mono h v (S (S k)) j TypeError H2); [reflexivity|lia].
Qed.

(** The only error a probe throws is the [TypeError] of a member access. *)
Lemma leftmost_throws_TypeError h v k e :
  leftmost h v k = Throw e → e = TypeError.
Proof.
  induction k as [|k IH]; simpl; [discriminate|].
  destruct (leftmost h v k) as [x|e'] eqn:E.
  - destruct x; simpl; congruence.
  - intros [= <-]. apply IH. reflexivity.
Qed.

Section GlueFacts.

Variable imports : callee → extern_fun.

(** The body of [asarray], with every probe read off the store. *)
Lemma asarray_unfold data st :
  asarray imports data st =
  let h := st_heap st in
  match leftmost h data 1 with
  | Throw e => (Throw e, st)
  | Normal t1 =>
      if is_number t1 then call imports asarray1d data st else
      match leftmost h data 2 with
      | Throw e => (Throw e, st)
      | Normal t2 =>
          if is_number t2 then call imports asarray2d data st else
          match leftmost h data 3 with
          | Throw e => (Throw e, st)
          | Normal t3 =>
              if is_number t3 then call imports asarray3d data st else
              match leftmost h data 4 with
              | Throw e => (Throw e, st)
              | Normal t4 =>
                  if is_number t4 then call imports asarray4d data st
                  else (Normal VUndefined, st)
              end
          end
      end
  end.
Proof.
  unfold asarray.
  change ((ret data).[0].[0].[0].[0]) with (probe data 4).
  change ((ret data).[0].[0].[0]) with (probe data 3).
  change ((ret data).[0].[0]) with (probe data 2).
  change ((ret data).[0]) with (probe data 1).
  unfold bind at 1. rewrite probe_run. cbv zeta.
  destruct (leftmost (st_heap st) data 1) as [t1|]; [|reflexivity].
  fold (is_number t1). destruct (is_number t1); [reflexivity|].
  unfold bind at 1. rewrite probe_run.
  destruct (leftmost (st_heap st) data 2) as [t2|]; [|reflexivity].
  fold (is_number t2). destruct (is_number t2); [reflexivity|].
  unfold bind at 1. rewrite probe_run.
  destruct (leftmost (st_heap st) data 3) as [t3|]; [|reflexivity].
  fold (is_number t3). destruct (is_number t3); [reflexivity|].
  unfold bind at 1. rewrite probe_run.
  destruct (leftmost (st_heap st) data 4) as [t4|]; [|reflexivity].
  fold (is_number t4). destruct (is_number t4); reflexivity.
Qed.

End GlueFacts.

(** ** Numbers along the leftmost chain *)

(** Below the level of a number the chain has values that are not numbers. *)
Lemma before_number h v r k :
  number_at h v r = true → k < r →
  ∃ t, leftmost h v k = Normal t ∧ is_number t = false.
Proof.
  intros Hr Hlt. destruct (leftmost h v k) as [t|e] eqn:Hk.
  - exists t. split; [reflexivity|].
    destruct (is_number t) eqn:Ht; [|reflexivity].
    apply is_number_spec in Ht as [x ->].
    rewrite (leftmost_after_number h v k x r Hk Hlt) in Hr. discriminate.
  - unfold number_at in Hr.
    rewrite (leftmost_throw_mono h v k r e Hk) in Hr by lia. discriminate.
Qed.

(** At most one level of the chain holds a number. *)
Lemma number_at_unique h v j k :
  number_at h v j = true → number_at h v k = true → j = k.
Proof.
  intros Hj Hk.
  destruct (lt_eq_lt_dec j k) as [[Hlt| ->]|Hlt]; [|reflexivity|].
  - destruct (before_number h v k j Hk Hlt) as (t & Ht & Hn).
    unfold number_at in Hj. rewrite Ht, Hn in Hj. discriminate.
  - destruct (before_number h v j k Hj Hlt) as (t & Ht & Hn).
    unfold number_at in Hk. rewrite Ht, Hn in Hk. discriminate.
Qed.

Lemma rank_bounds f : 1 ≤ rank f ≤ 4.
Proof. destruct f; simpl; lia. Qed.

(** ** Well-formed nested sequences *)

Lemma nested_object h n v :
  nested h (S n) v = true → ∃ l, v = VObject l.
Proof. destruct v; simpl; try discriminate. eauto. Qed.

Lemma nested_not_number h n v :
  nested h (S n) v = true → is_number v = false.
Proof. intros [l ->]%nested_object. reflexivity. Qed.

Lemma nested_first h n v :
  nested h (S n) v = true →
  ∃ x, get_member h v 0 = Normal x ∧ nested h n x = true.
Proof.
  destruct v as [| | | | |l]; simpl; try discriminate.
  destruct (h !! l) as [[|x xs]|] eqn:E; try discriminate.
  simpl. intros [Hx _]%andb_true_iff. exists x. split; [|exact Hx].
  unfold element. rewrite E. reflexivity.
Qed.

Lemma nested_leftmost h k :
  ∀ n v, nested h (k + n) v = true →
         ∃ x, leftmost h v k = Normal x ∧ nested h n x = true.
Proof.
  induction k as [|k IH]; intros n v Hv.
  - exists v. split; [reflexivity|exact Hv].
  - destruct (nested_first h (k + n) v Hv) as (x & Hg & Hx).
    destruct (IH n x Hx) as (y & Hl & Hy).
    exists y. split; [|exact Hy].
    rewrite leftmost_S_front, Hg. exact Hl.
Qed.

(** A well-formed sequence of rank [n] has its first number at level [n]. *)
Lemma nested_number_at h n v : nested h n v = true → number_at h v n = true.
Proof.
  intros Hv. rewrite <- (Nat.add_0_r n) in Hv.
  destruct (nested_leftmost h n 0 v Hv) as (x & Hl & Hx).
  unfold number_at. rewrite Hl. exact Hx.
Qed.

(** ** What [asarray] does, by the level of the first number *)

Section Dispatch.

Variable imports : callee → extern_fun.

(** A number at level [rank f] sends [data] to [f]. *)
Lemma dispatch_number_at data st f :
  number_at (st_heap st) data (rank f) = true →
  asarray imports data st = call imports f data st.
Proof.
  intros Hr. rewrite asarray_unfold. cbv zeta.
  assert (Hlow : ∀ k, k < rank f →
            ∃ t, leftmost (st_heap st) data k = Normal t
                 ∧ is_number t = false)
    by (intros k Hk; exact (before_number _ _ _ k Hr Hk)).
  unfold number_at in Hr.
  destruct f; cbn [rank] in Hr, Hlow.
  - destruct (leftmost (st_heap st) data 1) as [t|]; [|discriminate].
    rewrite Hr. reflexivity.
  - destruct (Hlow 1) as (t1 & -> & ->); [lia|].
    destruct (leftmost (st_heap st) data 2) as [t|]; [|discriminate].
    rewrite Hr. reflexivity.
  - destruct (Hlow 1) as (t1 & -> & ->); [lia|].
    destruct (Hlow 2) as (t2 & -> & ->); [lia|].
    destruct (leftmost (st_heap st) data 3) as [t|]; [|discriminate].
    rewrite Hr. reflexivity.
  - destruct (Hlow 1) as (t1 & -> & ->); [lia|].
    destruct (Hlow 2) as (t2 & -> & ->); [lia|].
    destruct (Hlow 3) as (t3 & -> & ->); [lia|].
    destruct (leftmost (st_heap st) data 4) as [t|]; [|discriminate].
    rewrite Hr. reflexivity.
Qed.

End Dispatch.

Section Outcomes.

Variable imports : callee → extern_fun.

(** Without a number at levels 1 to 4 nothing is called and the state is
    left as it was: a probe throws, or the body falls off its end. *)
Lemma no_number_no_call data st :
  (∀ k, 1 ≤ k ≤ 4 → number_at (st_heap st) data k = false) →
  asarray imports data st = (Throw TypeError, st)
  ∨ asarray imports data st = (Normal VUndefined, st).
Proof.
  intros Hno. rewrite asarray_unfold. cbv zeta.
  pose proof (Hno 1 ltac:(lia)) as H1. pose proof (Hno 2 ltac:(lia)) as H2.
  pose proof (Hno 3 ltac:(lia)) as H3. pose proof (Hno 4 ltac:(lia)) as H4.
  unfold number_at in H1, H2, H3, H4.
  destruct (leftmost (st_heap st) data 1) as [t1|e] eqn:E1;
    [rewrite H1|left; by rewrite (leftmost_throws_TypeError _ _ _ _ E1)].
  destruct (leftmost (st_heap st) data 2) as [t2|e] eqn:E2;
    [rewrite H2|left; by rewrite (leftmost_throws_TypeError _ _ _ _ E2)].
  destruct (leftmost (st_heap st) data 3) as [t3|e] eqn:E3;
    [rewrite H3|left; by rewrite (leftmost_throws_TypeError _ _ _ _ E3)].
  destruct (leftmost (st_heap st) data 4) as [t4|e] eqn:E4;
    [rewrite H4|left; by rewrite (leftmost_throws_TypeError _ _ _ _ E4)].
  right. reflexivity.
Qed.

(** Every run is of one of two kinds: a number is found at one of the
    levels 1 to 4 and [data] goes to the constructor of that level, or
    none is found and no constructor is called. *)
Lemma asarray_cases data st :
  (∃ f, number_at (st_heap st) data (rank f) = true
        ∧ asarray imports data st = call imports f data st)
  ∨ ((∀ k, 1 ≤ k ≤ 4 → number_at (st_heap st) data k = false)
     ∧ (asarray imports data st = (Throw TypeError, st)
        ∨ asarray imports data st = (Normal VUndefined, st))).
Proof.
  destruct (number_at (st_heap st) data 1) eqn:H1;
    [left; exists asarray1d; split; [exact H1|by apply dispatch_number_at]|].
  destruct (number_at (st_heap st) data 2) eqn:H2;
    [left; exists asarray2d; split; [exact H2|by apply dispatch_number_at]|].
  destruct (number_at (st_heap st) data 3) eqn:H3;
    [left; exists asarray3d; split; [exact H3|by apply dispatch_number_at]|].
  destruct (number_at (st_heap st) data 4) eqn:H4;
    [left; exists asarray4d; split; [exact H4|by apply dispatch_number_at]|].
  right.
  assert (Hno : ∀ k, 1 ≤ k ≤ 4 → number_at (st_heap st) data k = false).
  { intros k Hk.
    assert (k = 1 ∨ k = 2 ∨ k = 3 ∨ k = 4) as [->|[->|[->| ->]]] by lia;
      assumption. }
  split; [exact Hno|]. apply no_number_no_call, Hno.
Qed.

End Outcomes.

(** ** The properties of [asarray] *)

(** C1: a flat sequence of numbers of length at least 1 is handed, as it is,
    to the rank-1 constructor [asarray1d], and what [asarray] returns is what
    that call returns. *)
Theorem asarray_flat_sequence imports (st : state) (l : loc) (S : list value) :
  st_heap st !! l = Some S →
  1 ≤ length S →
  Forall (λ v, typeof v = "number") S →
  asarray imports (VObject l) st = call imports asarray1d (VObject l) st.
Proof.
  intros Hl Hlen Hnum. apply dispatch_number_at. cbn [rank].
  destruct S as [|x S']; [simpl in Hlen; lia|].
  apply Forall_cons in Hnum as [Hx _].
  unfold number_at. simpl. unfold element. rewrite Hl. simpl.
  unfold is_number. rewrite Hx. reflexivity.
Qed.

Lemma asarray_flat_sequence_witness :
  let st := State Samples.heap_flat [] in
  let S := [VNumber 1; VNumber 2; VNumber 3] in
  st_heap st !! 1%positive = Some S
  ∧ 1 ≤ length S
  ∧ Forall (λ v, typeof v = "number") S
  ∧ asarray Samples.handles (VObject 1) st
    = call Samples.handles asarray1d (VObject 1) st.
Proof.
  intros st S.
  assert (H1 : st_heap st !! 1%positive = Some S) by reflexivity.
  assert (H2 : 1 ≤ length S) by (simpl; lia).
  assert (H3 : Forall (λ v, typeof v = "number") S) by (repeat constructor).
  refine (conj H1 (conj H2 (conj H3 _))).
  exact (asarray_flat_sequence Samples.handles st 1%positive S H1 H2 H3).
Defined.

(** C2: a well-formed nested sequence of numbers with 2 levels is handed, as
    it is, to [asarray2d]; one with 3 levels to [asarray3d]; one with 4
    levels to [asarray4d]. *)
Theorem asarray_nested_sequence imports (st : state) (data : value) :
  (nested (st_heap st) 2 data = true →
   asarray imports data st = call imports asarray2d data st)
  ∧ (nested (st_heap st) 3 data = true →
     asarray imports data st = call imports asarray3d data st)
  ∧ (nested (st_heap st) 4 data = true →
     asarray imports data st = call imports asarray4d data st).
Proof.
  repeat split; intros Hn; apply dispatch_number_at;
    apply nested_number_at; exact Hn.
Qed.

Lemma asarray_nested_sequence_witness :
  (nested Samples.heap_matrix 2 (VObject 1) = true
   ∧ asarray Samples.handles (VObject 1) (State Samples.heap_matrix [])
     = call Samples.handles asarray2d (VObject 1)
         (State Samples.heap_matrix []))
  ∧ (nested Samples.heap_deep 3 (VObject 3) = true
     ∧ asarray Samples.handles (VObject 3) (State Samples.heap_deep [])
       = call Samples.handles asarray3d (VObject 3)
           (State Samples.heap_deep []))
  ∧ (nested Samples.heap_deep 4 (VObject 2) = true
     ∧ asarray Samples.handles (VObject 2) (State Samples.heap_deep [])
       = call Samples.handles asarray4d (VObject 2)
           (State Samples.heap_deep [])).
Proof.
  assert (H2 : nested Samples.heap_matrix 2 (VObject 1) = true)
    by reflexivity.
  assert (H3 : nested Samples.heap_deep 3 (VObject 3) = true) by reflexivity.
  assert (H4 : nested Samples.heap_deep 4 (VObject 2) = true) by reflexivity.
  refine (conj (conj H2 _) (conj (conj H3 _) (conj H4 _))).
  - exact (proj1 (asarray_nested_sequence Samples.handles
                    (State Samples.heap_matrix []) (VObject 1)) H2).
  - exact (proj1 (proj2 (asarray_nested_sequence Samples.handles
                           (State Samples.heap_deep []) (VObject 3))) H3).
  - exact (proj2 (proj2 (asarray_nested_sequence Samples.handles
                           (State Samples.heap_deep []) (VObject 2))) H4).
Defined.

(** C3: the levels [data[0]], [data[0][0]], [data[0][0][0]],
    [data[0][0][0][0]] are probed in this order; when level [r], for [r]
    from 1 to 4, is the first that holds a primitive number, the constructor
    of rank [r] is called with [data] as its only argument, and its result is
    the result of [asarray]. *)
Theorem asarray_first_number_level imports (st : state) (data : value)
    (f : callee) :
  number_at (st_heap st) data (rank f) = true →
  (∀ k, 1 ≤ k < rank f → number_at (st_heap st) data k = false) →
  asarray imports data st = call imports f data st
  ∧ call imports f data st
    = (fst (imports f data (st_heap st)),
       State (snd (imports f data (st_heap st)))
             (st_calls st ++ [CallEvent f data])).
Proof.
  intros Hr _. split; [by apply dispatch_number_at|].
  unfold call. destruct (imports f data (st_heap st)); reflexivity.
Qed.

Lemma asarray_first_number_level_witness :
  let st := State Samples.heap_deep [] in
  number_at (st_heap st) (VObject 3) (rank asarray3d) = true
  ∧ (∀ k, 1 ≤ k < rank asarray3d →
          number_at (st_heap st) (VObject 3) k = false)
  ∧ asarray Samples.handles (VObject 3) st
    = (Normal (VString "3d"),
       State Samples.heap_deep [CallEvent asarray3d (VObject 3)]).
Proof.
  intros st.
  assert (H1 : number_at (st_heap st) (VObject 3) (rank asarray3d) = true)
    by reflexivity.
  assert (H2 : ∀ k, 1 ≤ k < rank asarray3d →
                    number_at (st_heap st) (VObject 3) k = false).
  { intros k Hk. simpl in Hk.
    assert (k = 1 ∨ k = 2) as [-> | ->] by lia; reflexivity. }
  refine (conj H1 (conj H2 _)).
  destruct (asarray_first_number_level Samples.handles st (VObject 3)
              asarray3d H1 H2) as [-> ->].
  reflexivity.
Defined.

(** C4: the constructor that is called depends only on the level at which
    the chain [data[0]], [data[0][0]], ... reaches a primitive number: two
    inputs, in any two stores, whose chains reach a number at the same levels
    are sent to the same constructor, or both to none, whatever the numbers
    and whatever the elements at other positions are. *)
Theorem asarray_rank_by_shape imports (st1 st2 : state) (d1 d2 : value) :
  (∀ k, 1 ≤ k →
        number_at (st_heap st1) d1 k = number_at (st_heap st2) d2 k) →
  (∃ f, asarray imports d1 st1 = call imports f d1 st1
        ∧ asarray imports d2 st2 = call imports f d2 st2)
  ∨ (snd (asarray imports d1 st1) = st1 ∧ snd (asarray imports d2 st2) = st2).
Proof.
  intros Hsame.
  destruct (asarray_cases imports d1 st1) as [(f & Hf & Ha)|[Hno Ha]].
  - left. exists f. split; [exact Ha|].
    apply dispatch_number_at. rewrite <- Hsame; [exact Hf|].
    pose proof (rank_bounds f). lia.
  - right. split; [by destruct Ha as [-> | ->]|].
    destruct (no_number_no_call imports d2 st2) as [-> | ->];
      [|reflexivity..].
    intros k Hk. rewrite <- Hsame by lia. apply Hno, Hk.
Qed.

Lemma asarray_rank_by_shape_witness :
  let st1 := State Samples.heap_flat [] in
  let st2 := State Samples.heap_ragged [] in
  (∀ k, 1 ≤ k →
        number_at (st_heap st1) (VObject 1) k
        = number_at (st_heap st2) (VObject 1) k)
  ∧ ((∃ f, asarray Samples.handles (VObject 1) st1
           = call Samples.handles f (VObject 1) st1
           ∧ asarray Samples.handles (VObject 1) st2
             = call Samples.handles f (VObject 1) st2)
     ∨ (snd (asarray Samples.handles (VObject 1) st1) = st1
        ∧ snd (asarray Samples.handles (VObject 1) st2) = st2)).
Proof.
  intros st1 st2.
  assert (H : ∀ k, 1 ≤ k →
                number_at (st_heap st1) (VObject 1) k
                = number_at (st_heap st2) (VObject 1) k).
  { intros k Hk. destruct (decide (k = 1)) as [->|Hne]; [reflexivity|].
    rewrite (leftmost_after_number (st_heap st1) (VObject 1) 1 1%float k)
      by (reflexivity || lia).
    rewrite (leftmost_after_number (st_heap st2) (VObject 1) 1 7%float k)
      by (reflexivity || lia).
    reflexivity. }
  refine (conj H _).
  exact (asarray_rank_by_shape Samples.handles st1 st2 (VObject 1) (VObject 1)
           H).
Defined.

(** C5: on the empty array [[]] the call throws the error of a failed member
    access, and no constructor is called: the state, call log included, is
    the one the call started in. *)
Theorem asarray_empty_sequence imports (st : state) (l : loc) :
  st_heap st !! l = Some [] →
  asarray imports (VObject l) st = (Throw TypeError, st).
Proof.
  intros Hl. rewrite asarray_unfold. cbv zeta. simpl.
  unfold element. rewrite Hl. reflexivity.
Qed.

Lemma asarray_empty_sequence_witness :
  let st := State Samples.heap_empty [] in
  st_heap st !! 1%positive = Some []
  ∧ asarray Samples.handles (VObject 1) st = (Throw TypeError, st).
Proof.
  intros st.
  assert (H : st_heap st !! 1%positive = Some []) by reflexivity.
  refine (conj H _).
  exact (asarray_empty_sequence Samples.handles st 1%positive H).
Defined.

(** C6: on an input nested 5 levels deep, such as [[[[[[1]]]]]] (and on any
    deeper one), no branch matches: no constructor is called, nothing is
    thrown, and the call returns [undefined]. *)
Theorem asarray_rank5_falls_through imports (st : state) (data : value)
    (n : nat) :
  5 ≤ n →
  nested (st_heap st) n data = true →
  asarray imports data st = (Normal VUndefined, st).
Proof.
  intros Hn Hd.
  assert (Hk : ∀ k, k ≤ 4 →
             ∃ t, leftmost (st_heap st) data k = Normal t
                  ∧ is_number t = false).
  { intros k Hk. replace n with (k + S (n - k - 1)) in Hd by lia.
    destruct (nested_leftmost _ _ _ _ Hd) as (x & Hl & Hx).
    exists x. split; [exact Hl|]. exact (nested_not_number _ _ _ Hx). }
  rewrite asarray_unfold. cbv zeta.
  destruct (Hk 1) as (t1 & -> & ->); [lia|].
  destruct (Hk 2) as (t2 & -> & ->); [lia|].
  destruct (Hk 3) as (t3 & -> & ->); [lia|].
  destruct (Hk 4) as (t4 & -> & ->); [lia|].
  reflexivity.
Qed.

Lemma asarray_rank5_falls_through_witness :
  let st := State Samples.heap_deep [] in
  5 ≤ 5
  ∧ nested (st_heap st) 5 (VObject 1) = true
  ∧ asarray Samples.handles (VObject 1) st = (Normal VUndefined, st).
Proof.
  intros st.
  assert (H1 : 5 ≤ 5) by lia.
  assert (H2 : nested (st_heap st) 5 (VObject 1) = true) by reflexivity.
  refine (conj H1 (conj H2 _)).
  exact (asarray_rank5_falls_through Samples.handles st (VObject 1) 5 H1 H2).
Defined.

(** C8: [asarray] only reads.  Every probe leaves the state as it found it;
    the call then either ends with the state it started in (nothing written,
    nothing allocated, nothing called), or it is the call of one constructor
    on [data] itself in the state [asarray] started in. *)
Theorem asarray_read_only imports (st : state) (data : value) :
  snd (probe data 1 st) = st
  ∧ snd (probe data 2 st) = st
  ∧ snd (probe data 3 st) = st
  ∧ snd (probe data 4 st) = st
  ∧ ((∃ f, asarray imports data st = call imports f data st)
     ∨ asarray imports data st = (Throw TypeError, st)
     ∨ asarray imports data st = (Normal VUndefined, st)).
Proof.
  rewrite !probe_run. repeat apply conj; try reflexivity.
  destruct (asarray_cases imports data st) as [(f & _ & Ha)|[_ Ha]].
  - left. exists f. exact Ha.
  - right. exact Ha.
Qed.

(** A string is no nested sequence of numbers, of any rank. *)
Lemma nested_string h n s : nested h n (VString s) = false.
Proof. destruct n; reflexivity. Qed.

(** C9: there are inputs that are not nested 5 levels deep and on which
    [asarray] calls no constructor, throws nothing and returns [undefined]:
    on [["a"]] each of the four probes gives the string ["a"], whose
    [typeof] is not ['number'], and the body falls off its end. *)
Theorem asarray_text_falls_through imports (calls : list call_event) :
  let st := State Samples.heap_text calls in
  st_heap st !! 1%positive = Some [VString "a"]
  ∧ (∀ n, nested (st_heap st) n (VObject 1) = false)
  ∧ probe (VObject 1) 1 st = (Normal (VString "a"), st)
  ∧ probe (VObject 1) 2 st = (Normal (VString "a"), st)
  ∧ probe (VObject 1) 3 st = (Normal (VString "a"), st)
  ∧ probe (VObject 1) 4 st = (Normal (VString "a"), st)
  ∧ typeof (VString "a") ≠ "number"
  ∧ asarray imports (VObject 1) st = (Normal VUndefined, st).
Proof.
  intros st. repeat apply conj; try reflexivity.
  - intros [|n]; [reflexivity|].
    change (nested (st_heap st) (S n) (VObject 1))
      with (nested (st_heap st) n (VString "a") && true).
    rewrite nested_string. reflexivity.
  - discriminate.
Qed.

(** C10: on a bare primitive number, which the data model counts as a nested
    numeric sequence (of rank 0), [asarray] calls no constructor:
    [data[0]] is [undefined], which is not a number, and the next probe
    [data[0][0]] reads a member of [undefined] and throws a [TypeError]. *)
Theorem asarray_bare_number imports (st : state) (x : float) :
  nested (st_heap st) 0 (VNumber x) = true
  ∧ probe (VNumber x) 1 st = (Normal VUndefined, st)
  ∧ typeof VUndefined ≠ "number"
  ∧ probe (VNumber x) 2 st = (Throw TypeError, st)
  ∧ asarray imports (VNumber x) st = (Throw TypeError, st).
Proof.
  repeat apply conj; try reflexivity. discriminate.
Qed.

(** ** Further properties of [asarray] *)

(** *** More facts on the leftmost chain *)

Lemma number_at_true h v k :
  number_at h v k = true → ∃ x, leftmost h v k = Normal (VNumber x).
Proof.
  unfold number_at. destruct (leftmost h v k) as [t|]; [|discriminate].
  intros [x ->]%is_number_spec. eauto.
Qed.

(** Past a number the chain is [undefined] one level on and throws from
    then on. *)
Lemma leftmost_past_number h v j x k :
  leftmost h v j = Normal (VNumber x) → j < k →
  leftmost h v k = Normal VUndefined ∨ leftmost h v k = Throw TypeError.
Proof.
  intros Hj Hlt.
  assert (H1 : leftmost h v (S j) = Normal VUndefined)
    by (simpl; rewrite Hj; reflexivity).
  destruct (decide (k = S j)) as [->|Hne]; [left; exact H1|right].
  apply (leftmost_throw_mono h v (S (S j))); [|lia].
  change (leftmost h v (S (S j)))
    with (match leftmost h v (S j) with
          | Normal y => get_member h y 0
          | Throw e => Throw e
          end).
  rewrite H1. reflexivity.
Qed.

(** Above an array of the chain no level holds a number. *)
Lemma object_above h v k l j :
  leftmost h v k = Normal (VObject l) → j < k → number_at h v j = false.
Proof.
  intros Hk Hlt. destruct (number_at h v j) eqn:Hj; [|reflexivity].
  apply number_at_true in Hj as [x Hx].
  destruct (leftmost_past_number h v j x k Hx Hlt) as [H|H];
    rewrite H in Hk; discriminate.
Qed.

(** Below an empty array of the chain: [undefined], then a thrown error. *)
Lemma leftmost_below_empty h v k l :
  leftmost h v k = Normal (VObject l) → h !! l = Some [] →
  leftmost h v (S k) = Normal VUndefined
  ∧ ∀ j, S (S k) ≤ j → leftmost h v j = Throw TypeError.
Proof.
  intros Hk Hl.
  assert (H1 : leftmost h v (S k) = Normal VUndefined)
    by (simpl; rewrite Hk; simpl; unfold element; rewrite Hl; reflexivity).
  split; [exact H1|]. intros j Hj.
  apply (leftmost_throw_mono h v (S (S k))); [|lia].
  change (leftmost h v (S (S k)))
    with (match leftmost h v (S k) with
          | Normal y => get_member h y 0
          | Throw e => Throw e
          end).
  rewrite H1. reflexivity.
Qed.

Section Log.

Variable imports : callee → extern_fun.

Lemma call_log f data st :
  st_calls (snd (call imports f data st)) = st_calls st ++ [CallEvent f data].
Proof.
  unfold call. destruct (imports f data (st_heap st)). reflexivity.
Qed.

(** A call never ends in the state it started in: the log has grown. *)
Lemma call_changes_state f data st c : call imports f data st ≠ (c, st).
Proof.
  intros H. pose proof (call_log f data st) as Hlog. rewrite H in Hlog.
  simpl in Hlog. apply (f_equal length) in Hlog.
  rewrite length_app in Hlog. simpl in Hlog. lia.
Qed.

(** Without a number at levels 1 to 4 the outcome is read off level 4: the
    probes threw on the way, or the body fell off its end. *)
Lemma no_number_outcome data st :
  (∀ k, 1 ≤ k ≤ 4 → number_at (st_heap st) data k = false) →
  asarray imports data st =
  match leftmost (st_heap st) data 4 with
  | Throw _ => (Throw TypeError, st)
  | Normal _ => (Normal VUndefined, st)
  end.
Proof.
  intros Hno. rewrite asarray_unfold. cbv zeta.
  pose proof (Hno 1 ltac:(lia)) as H1. pose proof (Hno 2 ltac:(lia)) as H2.
  pose proof (Hno 3 ltac:(lia)) as H3. pose proof (Hno 4 ltac:(lia)) as H4.
  unfold number_at in H1, H2, H3, H4.
  destruct (leftmost (st_heap st) data 1) as [t1|e] eqn:E1.
  2:{ rewrite (leftmost_throw_mono _ _ 1 4 e E1) by lia.
      by rewrite (leftmost_throws_TypeError _ _ _ _ E1). }
  rewrite H1.
  destruct (leftmost (st_heap st) data 2) as [t2|e] eqn:E2.
  2:{ rewrite (leftmost_throw_mono _ _ 2 4 e E2) by lia.
      by rewrite (leftmost_throws_TypeError _ _ _ _ E2). }
  rewrite H2.
  destruct (leftmost (st_heap st) data 3) as [t3|e] eqn:E3.
  2:{ rewrite (leftmost_throw_mono _ _ 3 4 e E3) by lia.
      by rewrite (leftmost_throws_TypeError _ _ _ _ E3). }
  rewrite H3.
  destruct (leftmost (st_heap st) data 4) as [t4|e] eqn:E4;
    [rewrite H4; reflexivity|].
  by rewrite (leftmost_throws_TypeError _ _ _ _ E4).
Qed.

End Log.

(** *** Only the first element is looked at *)

(** X1: an array whose first element is a number goes to [asarray1d],
    whatever its other elements are: they are never read. *)
Theorem asarray_first_element_only imports (st : state) (l : loc)
    (x : float) (rest : list value) :
  st_heap st !! l = Some (VNumber x :: rest) →
  asarray imports (VObject l) st = call imports asarray1d (VObject l) st.
Proof.
  intros Hl. apply dispatch_number_at. cbn [rank].
  unfold number_at. simpl. unfold element. rewrite Hl. reflexivity.
Qed.

Lemma asarray_first_element_only_witness :
  let st := State Samples.heap_ragged [] in
  st_heap st !! 1%positive = Some [VNumber 7; VObject 2]
  ∧ asarray Samples.handles (VObject 1) st
    = call Samples.handles asarray1d (VObject 1) st.
Proof.
  intros st.
  assert (H : st_heap st !! 1%positive = Some [VNumber 7; VObject 2])
    by reflexivity.
  refine (conj H _).
  exact (asarray_first_element_only Samples.handles st 1%positive 7%float
           [VObject 2] H).
Defined.

(** X2: an array whose first element is an array whose first element is a
    number goes to [asarray2d], whatever the other rows and the other
    elements of the first row are. *)
Theorem asarray_first_row_only imports (st : state) (l l' : loc)
    (x : float) (rows rest : list value) :
  st_heap st !! l = Some (VObject l' :: rows) →
  st_heap st !! l' = Some (VNumber x :: rest) →
  asarray imports (VObject l) st = call imports asarray2d (VObject l) st.
Proof.
  intros Hl Hl'. apply dispatch_number_at. cbn [rank].
  assert (H1 : get_member (st_heap st) (VObject l) 0 = Normal (VObject l'))
    by (simpl; unfold element; rewrite Hl; reflexivity).
  assert (H2 : get_member (st_heap st) (VObject l') 0 = Normal (VNumber x))
    by (simpl; unfold element; rewrite Hl'; reflexivity).
  unfold number_at. rewrite leftmost_S_front, H1.
  change (leftmost (st_heap st) (VObject l') 1)
    with (get_member (st_heap st) (VObject l') 0).
  rewrite H2. reflexivity.
Qed.

Lemma asarray_first_row_only_witness :
  let st := State Samples.heap_ragged_rows [] in
  st_heap st !! 1%positive = Some [VObject 2; VNumber 5]
  ∧ st_heap st !! 2%positive = Some [VNumber 1; VString "x"]
  ∧ asarray Samples.handles (VObject 1) st
    = call Samples.handles asarray2d (VObject 1) st.
Proof.
  intros st.
  assert (H1 : st_heap st !! 1%positive = Some [VObject 2; VNumber 5])
    by reflexivity.
  assert (H2 : st_heap st !! 2%positive = Some [VNumber 1; VString "x"])
    by reflexivity.
  refine (conj H1 (conj H2 _)).
  exact (asarray_first_row_only Samples.handles st 1%positive 2%positive
           1%float [VNumber 5] [VString "x"] H1 H2).
Defined.

(** *** Inputs that are not arrays *)

(** X3: on [undefined], on [null] and on a boolean the call throws a
    [TypeError] and calls no constructor: on the first two the first probe
    throws, on a boolean the second. *)
Theorem asarray_not_indexable imports (st : state) (data : value) :
  data = VUndefined ∨ data = VNull ∨ (∃ b, data = VBoolean b) →
  asarray imports data st = (Throw TypeError, st).
Proof.
  intros [-> | [-> | [b ->]]]; rewrite asarray_unfold; reflexivity.
Qed.

Lemma asarray_not_indexable_witness :
  let st := State Samples.heap_flat [] in
  (VNull = VUndefined ∨ VNull = VNull ∨ (∃ b, VNull = VBoolean b))
  ∧ asarray Samples.handles VNull st = (Throw TypeError, st).
Proof.
  intros st.
  assert (H : VNull = VUndefined ∨ VNull = VNull ∨ (∃ b, VNull = VBoolean b))
    by (right; left; reflexivity).
  refine (conj H _).
  exact (asarray_not_indexable Samples.handles st VNull H).
Defined.

(** X4: on a string the call never reaches a constructor.  On the empty
    string it throws a [TypeError]; on any other string every probe gives
    the first character again, and the call returns [undefined]. *)
Theorem asarray_string imports (st : state) (s : string) :
  asarray imports (VString s) st =
  match s with
  | EmptyString => (Throw TypeError, st)
  | String _ _ => (Normal VUndefined, st)
  end.
Proof.
  destruct s; rewrite asarray_unfold; reflexivity.
Qed.

(** *** Calls of the constructors *)

(** X5: a run calls at most one constructor, and only with [data] itself as
    the argument: the call log is left as it was or has grown by one event,
    whose argument is [data]. *)
Theorem asarray_at_most_one_call imports (st : state) (data : value) :
  st_calls (snd (asarray imports data st)) = st_calls st
  ∨ ∃ f, st_calls (snd (asarray imports data st))
         = st_calls st ++ [CallEvent f data].
Proof.
  destruct (asarray_cases imports data st) as [(f & _ & ->)|[_ [-> | ->]]].
  - right. exists f. apply call_log.
  - left. reflexivity.
  - left. reflexivity.
Qed.

(** X6: the constructor [f] is the one called exactly when the chain
    [data[0]], [data[0][0]], ... holds a number at level [rank f]. *)
Theorem asarray_calls_iff imports (st : state) (data : value) (f : callee) :
  st_calls (snd (asarray imports data st)) = st_calls st ++ [CallEvent f data]
  ↔ number_at (st_heap st) data (rank f) = true.
Proof.
  split.
  - intros Hlog.
    destruct (asarray_cases imports data st) as [(g & Hg & Ha)|[_ Ha]].
    + rewrite Ha, call_log in Hlog.
      apply app_inj_tail in Hlog as [_ [= ->]]. exact Hg.
    + assert (Hsame : st_calls (snd (asarray imports data st)) = st_calls st)
        by (destruct Ha as [-> | ->]; reflexivity).
      rewrite Hsame in Hlog. apply (f_equal length) in Hlog.
      rewrite length_app in Hlog. simpl in Hlog. lia.
  - intros Hf. rewrite (dispatch_number_at imports data st f Hf).
    apply call_log.
Qed.

Lemma asarray_calls_iff_witness :
  let st := State Samples.heap_matrix [] in
  number_at (st_heap st) (VObject 1) (rank asarray2d) = true
  ∧ st_calls (snd (asarray Samples.handles (VObject 1) st))
    = st_calls st ++ [CallEvent asarray2d (VObject 1)].
Proof.
  intros st.
  assert (H : number_at (st_heap st) (VObject 1) (rank asarray2d) = true)
    by reflexivity.
  refine (conj H _).
  exact (proj2 (asarray_calls_iff Samples.handles st (VObject 1) asarray2d) H).
Defined.

(** *** When the call throws and when it returns [undefined] *)

(** X7: the call ends with a [TypeError] of its own, in the state it
    started in, exactly when no level from 1 to 4 holds a number and the
    probes throw by level 4. *)
Theorem asarray_throws_iff imports (st : state) (data : value) :
  asarray imports data st = (Throw TypeError, st)
  ↔ (∀ k, 1 ≤ k ≤ 4 → number_at (st_heap st) data k = false)
    ∧ leftmost (st_heap st) data 4 = Throw TypeError.
Proof.
  split.
  - intros Ha.
    destruct (asarray_cases imports data st) as [(f & _ & Hf)|[Hno _]].
    + rewrite Hf in Ha. destruct (call_changes_state imports _ _ _ _ Ha).
    + split; [exact Hno|].
      rewrite (no_number_outcome imports data st Hno) in Ha.
      destruct (leftmost (st_heap st) data 4) as [t|e] eqn:E;
        [discriminate|].
      by rewrite (leftmost_throws_TypeError _ _ _ _ E).
  - intros [Hno H4]. rewrite (no_number_outcome imports data st Hno), H4.
    reflexivity.
Qed.

Lemma asarray_throws_iff_witness :
  let st := State Samples.heap_empty [] in
  asarray Samples.handles (VObject 1) st = (Throw TypeError, st)
  ∧ leftmost (st_heap st) (VObject 1) 4 = Throw TypeError.
Proof.
  intros st.
  assert (H : asarray Samples.handles (VObject 1) st = (Throw TypeError, st))
    by reflexivity.
  refine (conj H _).
  exact (proj2 (proj1 (asarray_throws_iff Samples.handles st (VObject 1)) H)).
Defined.

(** X8: the call returns [undefined] without calling a constructor, in the
    state it started in, exactly when all four probes succeed and none of
    them gives a number. *)
Theorem asarray_undefined_iff imports (st : state) (data : value) :
  asarray imports data st = (Normal VUndefined, st)
  ↔ (∀ k, 1 ≤ k ≤ 4 → number_at (st_heap st) data k = false)
    ∧ ∃ t, leftmost (st_heap st) data 4 = Normal t.
Proof.
  split.
  - intros Ha.
    destruct (asarray_cases imports data st) as [(f & _ & Hf)|[Hno _]].
    + rewrite Hf in Ha. destruct (call_changes_state imports _ _ _ _ Ha).
    + split; [exact Hno|].
      rewrite (no_number_outcome imports data st Hno) in Ha.
      destruct (leftmost (st_heap st) data 4) as [t|e] eqn:E;
        [eauto|discriminate].
  - intros [Hno [t H4]].
    rewrite (no_number_outcome imports data st Hno), H4. reflexivity.
Qed.

Lemma asarray_undefined_iff_witness :
  let st := State Samples.heap_text [] in
  asarray Samples.handles (VObject 1) st = (Normal VUndefined, st)
  ∧ ∃ t, leftmost (st_heap st) (VObject 1) 4 = Normal t.
Proof.
  intros st.
  assert (H : asarray Samples.handles (VObject 1) st
              = (Normal VUndefined, st)) by reflexivity.
  refine (conj H _).
  exact (proj2 (proj1 (asarray_undefined_iff Samples.handles st (VObject 1))
                  H)).
Defined.

(** X9: an empty array on the leftmost chain.  When the array reached after
    [k] member accesses is empty, the call throws a [TypeError] for [k] up
    to 2 (the inputs [[]], [[[]]] and [[[[]]]]), and for [k = 3] (the input
    [[[[[]]]]]) it returns [undefined] without an error; no constructor is
    called in either case. *)
Theorem asarray_empty_inner_sequence imports (st : state) (data : value)
    (k : nat) (l : loc) :
  k ≤ 3 →
  leftmost (st_heap st) data k = Normal (VObject l) →
  st_heap st !! l = Some [] →
  asarray imports data st =
  if decide (k = 3) then (Normal VUndefined, st) else (Throw TypeError, st).
Proof.
  intros Hk3 Hk Hl.
  destruct (leftmost_below_empty _ _ _ _ Hk Hl) as [Hu Ht].
  assert (Hno : ∀ j, 1 ≤ j ≤ 4 → number_at (st_heap st) data j = false).
  { intros j Hj. destruct (lt_eq_lt_dec j k) as [[Hlt| ->]|Hgt].
    - exact (object_above _ _ _ _ _ Hk Hlt).
    - unfold number_at. rewrite Hk. reflexivity.
    - unfold number_at. destruct (decide (j = S k)) as [->|Hne].
      + rewrite Hu. reflexivity.
      + rewrite Ht by lia. reflexivity. }
  rewrite (no_number_outcome imports data st Hno).
  destruct (decide (k = 3)) as [->|Hne].
  - rewrite Hu. reflexivity.
  - rewrite Ht by lia. reflexivity.
Qed.

Lemma asarray_empty_inner_sequence_witness :
  let st := State Samples.heap_hollow [] in
  (3 ≤ 3
   ∧ leftmost (st_heap st) (VObject 1) 3 = Normal (VObject 4)
   ∧ st_heap st !! 4%positive = Some []
   ∧ asarray Samples.handles (VObject 1) st = (Normal VUndefined, st))
  ∧ (2 ≤ 3
     ∧ leftmost (st_heap st) (VObject 2) 2 = Normal (VObject 4)
     ∧ asarray Samples.handles (VObject 2) st = (Throw TypeError, st)).
Proof.
  intros st.
  assert (H3 : 3 ≤ 3) by lia.
  assert (H2 : 2 ≤ 3) by lia.
  assert (Ha : leftmost (st_heap st) (VObject 1) 3 = Normal (VObject 4))
    by reflexivity.
  assert (Hb : leftmost (st_heap st) (VObject 2) 2 = Normal (VObject 4))
    by reflexivity.
  assert (Hl : st_heap st !! 4%positive = Some []) by reflexivity.
  refine (conj (conj H3 (conj Ha (conj Hl _))) (conj H2 (conj Hb _))).
  - exact (asarray_empty_inner_sequence Samples.handles st (VObject 1) 3
             4%positive H3 Ha Hl).
  - exact (asarray_empty_inner_sequence Samples.handles st (VObject 2) 2
             4%positive H2 Hb Hl).
Defined.

(** *** Errors signalled while probing *)

(** Once a probe that [asarray] reaches has given [undefined], the next
    member access throws; the call ends with that [TypeError], unless the
    probe was the fourth and last one. *)
Lemma asarray_after_undefined imports data st k :
  k ≤ 3 →
  (∀ j, 1 ≤ j ≤ k → number_at (st_heap st) data j = false) →
  leftmost (st_heap st) data (S k) = Normal VUndefined →
  leftmost (st_heap st) data (S (S k)) = Throw TypeError
  ∧ asarray imports data st =
    if decide (k = 3) then (Normal VUndefined, st) else (Throw TypeError, st).
Proof.
  intros Hk Hlow Hu.
  assert (Ht : leftmost (st_heap st) data (S (S k)) = Throw TypeError).
  { change (leftmost (st_heap st) data (S (S k)))
      with (match leftmost (st_heap st) data (S k) with
            | Normal y => get_member (st_heap st) y 0
            | Throw e => Throw e
            end).
    rewrite Hu. reflexivity. }
  split; [exact Ht|].
  assert (Hno : ∀ j, 1 ≤ j ≤ 4 → number_at (st_heap st) data j = false).
  { intros j Hj. destruct (le_lt_dec j k) as [Hle|Hgt]; [apply Hlow; lia|].
    unfold number_at. destruct (decide (j = S k)) as [->|Hne].
    - rewrite Hu. reflexivity.
    - rewrite (leftmost_throw_mono _ _ (S (S k)) j TypeError Ht) by lia.
      reflexivity. }
  rewrite (no_number_outcome imports data st Hno).
  destruct (decide (k = 3)) as [->|Hne].
  - rewrite Hu. reflexivity.
  - rewrite (leftmost_throw_mono _ _ (S (S k)) 4 TypeError Ht) by lia.
    reflexivity.
Qed.

(** C7, as the claim states it, fails.  On the number 5 the first probe
    [data[0]] of [asarray] reads a member of a primitive number and throws
    nothing.  On [[[[[]]]]] the fourth probe of [asarray] reads a member of
    the empty array reached after three accesses and throws nothing, and the
    whole call signals no error at all. *)
Lemma index_errors_counterexample :
  let st := State Samples.heap_hollow [] in
  (probe (VNumber 5) 0 st = (Normal (VNumber 5), st)
   ∧ ¬ (∃ e, fst (probe (VNumber 5) 1 st) = Throw e))
  ∧ (probe (VObject 1) 3 st = (Normal (VObject 4), st)
     ∧ st_heap st !! 4%positive = Some []
     ∧ ¬ (∃ e, fst (probe (VObject 1) 4 st) = Throw e)
     ∧ ¬ (∃ e, fst (asarray Samples.handles (VObject 1) st) = Throw e)).
Proof.
  intros st. repeat apply conj; try reflexivity;
    intros [e He]; vm_compute in He; discriminate.
Qed.

(** C7, amended: when a probe that [asarray] reaches reads a member of a
    primitive number or of an empty sequence, that access signals no error
    and gives [undefined].  The error of probing is the [TypeError] of the
    following probe, which reads a member of that [undefined]: when the
    number or the empty sequence is reached after [k] accesses, the call
    throws a [TypeError] for [k] up to 2, and for [k = 3], where no probe
    follows, it signals nothing and returns [undefined].  No constructor is
    called. *)
Theorem probe_index_errors imports (st : state) (data v : value) (k : nat) :
  k ≤ 3 →
  probe data k st = (Normal v, st) →
  (∀ j, 1 ≤ j ≤ k → number_at (st_heap st) data j = false) →
  (∃ x, v = VNumber x) ∨ (∃ l, v = VObject l ∧ st_heap st !! l = Some []) →
  probe data (S k) st = (Normal VUndefined, st)
  ∧ (k < 3 →
     probe data (S (S k)) st = (Throw TypeError, st)
     ∧ asarray imports data st = (Throw TypeError, st))
  ∧ (k = 3 → asarray imports data st = (Normal VUndefined, st)).
Proof.
  intros Hk Hp Hlow Hv. rewrite !probe_run. rewrite probe_run in Hp.
  assert (Hkv : leftmost (st_heap st) data k = Normal v) by congruence.
  assert (Hu : leftmost (st_heap st) data (S k) = Normal VUndefined).
  { simpl. rewrite Hkv. destruct Hv as [[x ->]|(l & -> & Hl)].
    - reflexivity.
    - simpl. unfold element. rewrite Hl. reflexivity. }
  destruct (asarray_after_undefined imports data st k Hk Hlow Hu) as [Ht Ha].
  rewrite Hu. split; [reflexivity|]. split.
  - intros Hlt. rewrite Ht. split; [reflexivity|].
    rewrite Ha. destruct (decide (k = 3)); [lia|reflexivity].
  - intros ->. exact Ha.
Qed.

Lemma probe_index_errors_witness :
  let st := State Samples.heap_hollow [] in
  (0 ≤ 3
   ∧ probe (VNumber 5) 0 st = (Normal (VNumber 5), st)
   ∧ probe (VNumber 5) 1 st = (Normal VUndefined, st)
   ∧ asarray Samples.handles (VNumber 5) st = (Throw TypeError, st))
  ∧ (3 ≤ 3
     ∧ probe (VObject 1) 3 st = (Normal (VObject 4), st)
     ∧ (∀ j, 1 ≤ j ≤ 3 → number_at (st_heap st) (VObject 1) j = false)
     ∧ st_heap st !! 4%positive = Some []
     ∧ probe (VObject 1) 4 st = (Normal VUndefined, st)
     ∧ asarray Samples.handles (VObject 1) st = (Normal VUndefined, st)).
Proof.
  intros st.
  assert (H0 : 0 ≤ 3) by lia.
  assert (H3 : 3 ≤ 3) by lia.
  assert (Hp0 : probe (VNumber 5) 0 st = (Normal (VNumber 5), st))
    by reflexivity.
  assert (Hp3 : probe (VObject 1) 3 st = (Normal (VObject 4), st))
    by reflexivity.
  assert (Hl0 : ∀ j, 1 ≤ j ≤ 0 →
                  number_at (st_heap st) (VNumber 5) j = false)
    by (intros j Hj; lia).
  assert (Hl3 : ∀ j, 1 ≤ j ≤ 3 →
                  number_at (st_heap st) (VObject 1) j = false).
  { intros j Hj.
    assert (j = 1 ∨ j = 2 ∨ j = 3) as [->|[->| ->]] by lia; reflexivity. }
  assert (He : st_heap st !! 4%positive = Some []) by reflexivity.
  pose proof (probe_index_errors Samples.handles st (VNumber 5) (VNumber 5) 0
                H0 Hp0 Hl0 (or_introl (ex_intro _ 5%float eq_refl)))
    as (Ha1 & Ha2 & _).
  pose proof (probe_index_errors Samples.handles st (VObject 1) (VObject 4) 3
                H3 Hp3 Hl3
                (or_intror (ex_intro _ 4%positive (conj eq_refl He))))
    as (Hb1 & _ & Hb3).
  refine (conj (conj H0 (conj Hp0 (conj Ha1 _)))
               (conj H3 (conj Hp3 (conj Hl3 (conj He (conj Hb1 _)))))).
  - exact (proj2 (Ha2 ltac:(lia))).
  - exact (Hb3 eq_refl).
Defined.
